(** * The product catalog service: request handlers over a table of products

    A shallow embedding of the request handlers of the product service
    ([update_products], [delete_products] and the two definitions of
    [list_products]) together with the parts of the service they call:
    the [Product] model, the content-type check and the error responses.

    Layout:
    - [Py]: the pieces of the Python runtime the handlers rely on (truth
      value of a query parameter, [str.upper], [str.lower], [str] of an
      integer, enumeration classes);
    - [PyDecimal]: decimal amounts and their text form;
    - [JSON], [Exception], [Result];
    - [Product]: the record, [serialize], [deserialize] and the queries of
      the persistence layer;
    - the view monad and the handlers;
    - the theorems. *)

From Stdlib Require Import ZArith Ascii DecimalString DecimalN DecimalZ.
From stdpp Require Import base option list gmap strings.

Set Warnings "-register-all".

Local Open Scope Z_scope.

(** ** Python runtime *)

Module Py.

(** Text is a sequence of 8-bit characters; the case mappings below move the
    ASCII letters and leave every other character alone. *)

Definition upper_char (c : ascii) : ascii :=
  let n := N_of_ascii c in
  if ((97 <=? n) && (n <=? 122))%N then ascii_of_N (n - 32) else c.

Definition lower_char (c : ascii) : ascii :=
  let n := N_of_ascii c in
  if ((65 <=? n) && (n <=? 90))%N then ascii_of_N (n + 32) else c.

Fixpoint map_chars (f : ascii → ascii) (s : string) : string :=
  match s with
  | EmptyString => EmptyString
  | String c s' => String (f c) (map_chars f s')
  end.

(** [s.upper()] and [s.lower()]. *)
Definition upper : string → string := map_chars upper_char.
Definition lower : string → string := map_chars lower_char.

(** [str(n)] of an integer. *)
Definition str (n : Z) : string := NilZero.string_of_int (Z.to_int n).

(** The value an [if] tests when it is handed the result of
    [request.args.get]: [None] and the empty string count as false, and
    every other string is true. [truthy v] is the string inside when the
    test succeeds. *)
Definition truthy (v : option string) : option string :=
  match v with
  | Some s => if decide (s = "") then None else Some s
  | None => None
  end.

(** An enumeration class ([class Category(Enum)]): finitely many members,
    each with a name of its own. *)
Class Enum (E : Type) := {
  enum_eq_dec : EqDecision E;
  members : list E;
  member_name : E → string;
  members_complete : ∀ c, c ∈ members;
  member_name_inj : ∀ c1 c2, member_name c1 = member_name c2 → c1 = c2;
}.

#[global] Existing Instance enum_eq_dec.

(** [getattr(E, attr)] on an enumeration class: the member of that name, if
    there is one. *)
Definition getattr {E} `{Enum E} (attr : string) : option E :=
  snd <$> list_find (λ c, member_name c = attr) members.

End Py.

(** ** Decimal amounts *)

Module PyDecimal.

(** A finite decimal in plain notation: a sign, an integer part and the
    digits after the point (kept as written, so [12.50] and [12.5] are
    different values of this type). *)
Record t := mk {
  negative : bool;
  int_part : N;
  frac_digits : Decimal.uint;
}.

#[global] Instance uint_eq_dec : EqDecision Decimal.uint.
Proof. intros x y. unfold Decision. decide equality. Defined.

#[global] Instance t_eq_dec : EqDecision t.
Proof. solve_decision. Defined.

(** The digits after the point, with the point when there are any. *)
Definition frac_text (f : Decimal.uint) : string :=
  match f with
  | Decimal.Nil => ""
  | _ => "." +:+ NilEmpty.string_of_uint f
  end.

(** [str(d)]: [-] when negative, the integer part, and [.digits] when there
    are digits after the point. *)
Definition str (d : t) : string :=
  (if negative d then "-" else "") +:+
  NilEmpty.string_of_uint (N.to_uint (int_part d)) +:+
  frac_text (frac_digits d).

(** The text up to the first point, and the text after it. *)
Fixpoint split_point (s : string) : string * string :=
  match s with
  | EmptyString => (EmptyString, EmptyString)
  | String c s' =>
      if decide (c = "."%char) then (EmptyString, s')
      else let '(a, b) := split_point s' in (String c a, b)
  end.

(** The digits of a decimal without its sign: at least one digit, before
    or after the point. *)
Definition parse_unsigned (neg : bool) (body : string) : option t :=
  let '(ip, fp) := split_point body in
  if decide (ip = "" ∧ fp = "") then None
  else
    i ← NilEmpty.uint_of_string ip;
    f ← NilEmpty.uint_of_string fp;
    Some (mk neg (N.of_uint i) f).

(** [Decimal(s)] for a string in plain notation; [None] when [s] is not a
    decimal (the constructor raises). *)
Definition parse (s : string) : option t :=
  match s with
  | String "-" rest => parse_unsigned true rest
  | _ => parse_unsigned false s
  end.

(** [Decimal(n)] for an integer. *)
Definition of_Z (n : Z) : t := mk (bool_decide (n < 0)) (Z.abs_N n) Decimal.Nil.

End PyDecimal.

(** ** JSON values, exceptions and results *)

(** A decoded JSON document. Numbers are integers here: the handlers never
    compute with a number, and [serialize] emits the price as text. *)
Inductive JSON :=
| JNull
| JBool (b : bool)
| JInt (n : Z)
| JStr (s : string)
| JArr (items : list JSON)
| JObj (fields : gmap string JSON).

(** The exceptions that leave a handler: [abort(code, description)] raises
    an HTTP exception, [deserialize] and [update] raise
    [DataValidationError], and a failed attribute lookup raises
    [AttributeError]. *)
Inductive Exception :=
| HTTPException (code : Z) (description : string)
| DataValidationError (message : string)
| AttributeError (message : string).

Inductive Result (A : Type) :=
| Return (a : A)
| Raise (e : Exception).
Arguments Return {A} a.
Arguments Raise {A} e.

#[global] Instance Result_ret : MRet Result := λ A a, Return a.
#[global] Instance Result_bind : MBind Result := λ A B f m,
  match m with
  | Return a => f a
  | Raise e => Raise e
  end.

(** Modelled from the spec: the constants of [service.common.status] that
    the handlers name, with the codes the spec gives them. *)
Definition HTTP_200_OK : Z := 200.
Definition HTTP_204_NO_CONTENT : Z := 204.
Definition HTTP_400_BAD_REQUEST : Z := 400.
Definition HTTP_404_NOT_FOUND : Z := 404.
Definition HTTP_415_UNSUPPORTED_MEDIA_TYPE : Z := 415.

(** What a view hands back as the body: a JSON document or plain text. *)
Inductive Body :=
| Json (j : JSON)
| Text (s : string).

(** A request as the handlers read it: the [Content-Type] header, the query
    string as a multi-dict in the order it was sent ([request.args]), and
    the decoded JSON body ([None] when the body is not valid JSON). *)
Record Request := mkRequest {
  content_type : option string;
  args : list (string * string);
  json : option JSON;
}.

(** [request.args.get(key)]: the first value sent for [key], if any. *)
Definition args_get (key : string) (req : Request) : option string :=
  (λ hit, hit.2.2) <$> list_find (λ kv, kv.1 = key) (args req).


Section service.

(** The [Category] enumeration is declared in [service.models]; the
    handlers use nothing of it beyond its being an enumeration class. *)
Context {Category : Type} {Category_enum : Py.Enum Category}.

(** ** The Product model *)

(** Modelled from the spec: the [Product] record of [service.models]. The
    id is absent until the store assigns one; the description is
    optional. *)
Record Product := mkProduct {
  id : option Z;
  name : string;
  description : option string;
  price : PyDecimal.t;
  available : bool;
  category : Category;
}.

#[global] Instance Product_eq_dec : EqDecision Product.
Proof. solve_decision. Defined.

Definition set_id (k : Z) (p : Product) : Product :=
  mkProduct (Some k) (name p) (description p) (price p) (available p) (category p).

(** Modelled from the spec: [Product.serialize] ([service.models] is not
    among the sources). A mapping with keys [id], [name], [description],
    [price], [available], [category]; the price as a string, the category
    as its name. *)
Definition serialize (p : Product) : JSON :=
  JObj (list_to_map [
    ("id", from_option JInt JNull (id p));
    ("name", JStr (name p));
    ("description", from_option JStr JNull (description p));
    ("price", JStr (PyDecimal.str (price p)));
    ("available", JBool (available p));
    ("category", JStr (Py.member_name (category p)))
  ]).

(** A validation error about one part of the payload. *)
Definition invalid {A} (what : string) : Result A :=
  Raise (DataValidationError ("Invalid product: " +:+ what)).

(** Modelled from the spec: [Product.deserialize]. Populates the fields
    from a mapping and leaves [id] alone; a validation error when [name] is
    missing, when [category] is missing or names no member, or when [price]
    or [available] cannot be read as a decimal and a boolean. Keys it does
    not know are ignored. *)
Definition deserialize (p : Product) (data : JSON) : Result Product :=
  match data with
  | JObj data =>
      name ← match data !! "name" with
             | Some (JStr s) => Return s
             | _ => invalid "name"
             end;
      description ← match data !! "description" with
                    | None | Some JNull => Return None
                    | Some (JStr s) => Return (Some s)
                    | _ => invalid "description"
                    end;
      price ← match data !! "price" with
              | Some (JStr s) => from_option Return (invalid "price") (PyDecimal.parse s)
              | Some (JInt n) => Return (PyDecimal.of_Z n)
              | _ => invalid "price"
              end;
      available ← match data !! "available" with
                  | Some (JBool b) => Return b
                  | _ => invalid "available"
                  end;
      category ← match data !! "category" with
                 | Some (JStr s) => from_option Return (invalid "category") (Py.getattr s)
                 | _ => invalid "category"
                 end;
      Return (mkProduct (id p) name description price available category)
  | _ => invalid "body of request contained bad or no data"
  end.

(** The table behind the model: its rows, in the order the store returns
    them. *)
Abbreviation Store := (list Product).

(** Modelled from the spec: [Product.all] returns every record. *)
Definition Product_all (s : Store) : list Product := s.

(** Modelled from the spec: [Product.find] returns the record with that
    id, or nothing. *)
Definition Product_find (k : Z) (s : Store) : option Product :=
  snd <$> list_find (λ r, id r = Some k) s.

(** Modelled from the spec: [Product.find_by_name] returns the records
    whose name is exactly the given one. *)
Definition Product_find_by_name (n : string) (s : Store) : list Product :=
  filter (λ r, name r = n) s.

(** Modelled from the spec: [Product.find_by_category] returns the records
    of exactly that category. *)
Definition Product_find_by_category (c : Category) (s : Store) : list Product :=
  filter (λ r, category r = c) s.

(** Modelled from the spec: [Product.find_by_availability] returns the
    records whose flag is exactly the given boolean. *)
Definition Product_find_by_availability (b : bool) (s : Store) : list Product :=
  filter (λ r, available r = b) s.

(** Modelled from the spec: [Product.update] persists the record under its
    current id and fails when the record has none. *)
Definition Product_update (p : Product) (s : Store) : Result Store :=
  match id p with
  | None => Raise (DataValidationError "Update called with empty ID field")
  | Some k => Return ((λ r, if decide (id r = Some k) then p else r) <$> s)
  end.

(** Modelled from the spec: [Product.delete] removes the record if present
    and does nothing otherwise. *)
Definition Product_delete (p : Product) (s : Store) : Store :=
  filter (λ r, id r ≠ id p) s.

(** ** Views *)

(** A view runs against the current request and the table; it returns or
    raises, and leaves the table as it then is. Calls to the logger are
    left out: they change neither. *)
Definition View (A : Type) : Type := Request → Store → Result A * Store.

#[local] Instance View_ret : MRet View := λ A a _ s, (Return a, s).
#[local] Instance View_bind : MBind View := λ A B f m req s,
  match m req s with
  | (Return a, s') => f a req s'
  | (Raise e, s') => (Raise e, s')
  end.

(** [raise e]. *)
Definition raise {A} (e : Exception) : View A := λ _ s, (Raise e, s).

(** A call into the model that only reads the table. *)
Definition query {A} (f : Store → A) : View A := λ _ s, (Return (f s), s).

(** A call into the model that may fail without touching the table. *)
Definition lift {A} (r : Result A) : View A := λ _ s, (r, s).

(** A call into the model that writes the table. *)
Definition commit (f : Store → Result Store) : View () := λ _ s,
  match f s with
  | Return s' => (Return (), s')
  | Raise e => (Raise e, s)
  end.

(** [abort(code, description)]. *)
Definition abort {A} (code : Z) (description : string) : View A :=
  raise (HTTPException code description).

(** [request.args.get(key)]. *)
Definition request_args_get (key : string) : View (option string) :=
  λ req s, (Return (args_get key req), s).

(** [request.get_json()]: the decoded body, a 400 when it does not decode. *)
Definition request_get_json : View JSON := λ req s,
  match json req with
  | Some j => (Return j, s)
  | None => (Raise (HTTPException HTTP_400_BAD_REQUEST "Failed to decode JSON object"), s)
  end.

(** Modelled from the spec: [check_content_type], a helper of
    [service.routes] that is not among the sources. The request must carry
    the given content type; a 415 when the header is missing or differs. *)
Definition check_content_type (media_type : string) : View () := λ req s,
  if decide (content_type req = Some media_type) then (Return (), s)
  else (Raise (HTTPException HTTP_415_UNSUPPORTED_MEDIA_TYPE
                 ("Content-Type must be " +:+ media_type)), s).

(** [getattr(Category, attr)]: an [AttributeError] when no member has that
    name. *)
Definition getattr_Category (attr : string) : View Category :=
  match Py.getattr attr with
  | Some c => mret c
  | None => raise (AttributeError attr)
  end.

(** The description both handlers give their 404: the f-string around
    [product_id]. *)
Definition not_found_message (product_id : Z) : string :=
  "Product with id '" +:+ Py.str product_id +:+ "' was not found.".

(** ** The handlers *)

(** [PUT /products/<int:product_id>] *)
Definition update_products (product_id : Z) : View (Body * Z) :=
  check_content_type "application/json";;
  product ← query (Product_find product_id);
  match product with
  | None => abort HTTP_404_NOT_FOUND (not_found_message product_id)
  | Some product =>
      data ← request_get_json;
      product ← lift (deserialize product data);
      let product := set_id product_id product in
      commit (Product_update product);;
      mret (Json (serialize product), HTTP_200_OK)
  end.

(** [DELETE /products/<int:product_id>] *)
Definition delete_products (product_id : Z) : View (Body * Z) :=
  product ← query (Product_find product_id);
  match product with
  | Some product => commit (λ s, Return (Product_delete product s))
  | None => mret ()
  end;;
  mret (Text "", HTTP_204_NO_CONTENT).

(** [GET /products], the first definition in the source. *)
Definition list_products_first : View (Body * Z) :=
  products ← query Product_all;
  let results := serialize <$> products in
  mret (Json (JArr results), HTTP_200_OK).

(** [GET /products], the second definition in the source. *)
Definition list_products : View (Body * Z) :=
  name ← request_args_get "name";
  category ← request_args_get "category";
  available ← request_args_get "available";
  products ←
    match Py.truthy name, Py.truthy category, Py.truthy available with
    | Some name, _, _ =>
        query (Product_find_by_name name)
    | None, Some category, _ =>
        category_value ← getattr_Category (Py.upper category);
        query (Product_find_by_category category_value)
    | None, None, Some available =>
        let available_value :=
          bool_decide (Py.lower available ∈ ["true"; "yes"; "1"]) in
        query (Product_find_by_availability available_value)
    | None, None, None =>
        query Product_all
    end;
  let results := serialize <$> products in
  mret (Json (JArr results), HTTP_200_OK).

(** Modelled from the spec: [get_products], the handler of
    [GET /products/<int:product_id>], which is not among the sources. The
    serialized product with a 200 when it is found, a 404 naming the id
    otherwise. *)
Definition get_products (product_id : Z) : View (Body * Z) :=
  product ← query (Product_find product_id);
  match product with
  | None => abort HTTP_404_NOT_FOUND (not_found_message product_id)
  | Some product => mret (Json (serialize product), HTTP_200_OK)
  end.

(** ** From a view's result to the response *)

Inductive Response :=
| HTTP (status : Z) (body : Body)
| Unhandled (e : Exception).

(** Modelled from the spec: the error handlers of the service. An aborted
    request and a validation error surface as JSON with a [message] field,
    the latter as a 400; any other exception is not handled. *)
Definition respond (r : Result (Body * Z)) : Response :=
  match r with
  | Return (body, status) => HTTP status body
  | Raise (HTTPException code description) =>
      HTTP code (Json (JObj {[ "message" := JStr description ]}))
  | Raise (DataValidationError message) =>
      HTTP HTTP_400_BAD_REQUEST (Json (JObj {[ "message" := JStr message ]}))
  | Raise e => Unhandled e
  end.

(** The response a client sees and the table afterwards. *)
Definition serve (view : View (Body * Z)) (req : Request) (s : Store) : Response * Store :=
  let '(r, s') := view req s in (respond r, s').

(** A 4xx response. *)
Definition client_error (r : Response) : Prop :=
  match r with
  | HTTP status _ => 400 ≤ status < 500
  | Unhandled _ => False
  end.

(** ** Registering the handlers *)

Inductive ViewFunction :=
| NoArgs (view : View (Body * Z))
| WithProductId (view : Z → View (Body * Z)).

(** A function object: what the [def] at a given line of the source makes,
    under the name it is given there. Two [def] statements make two
    function objects, also when they use one name. *)
Record Function := mkFunction {
  def_line : nat;
  func_name : string;
  view_func : ViewFunction;
}.

(** A rule of the URL map: the path, the methods and the endpoint. *)
Record Rule := mkRule {
  rule_path : string;
  rule_methods : list string;
  rule_endpoint : string;
}.

(** The application object: its URL map and the view function of each
    endpoint. *)
Record App := mkApp {
  url_map : list Rule;
  view_functions : gmap string Function;
}.

(** What decorating a function comes to. *)
Inductive Registration :=
| Registered (app : App)
| AssertionError (message : string).

(** [@app.route(rule, methods=methods)] applied to [f], as the framework's
    [add_url_rule] does it: the endpoint is the name of the function, an
    endpoint that already has another function as its view is refused, and
    otherwise the rule is added and the function becomes the view of the
    endpoint. *)
Definition route (rule : string) (methods : list string) (f : Function)
    (app : App) : Registration :=
  let endpoint := func_name f in
  let added :=
    mkApp (url_map app ++ [mkRule rule methods endpoint])
          (<[endpoint := f]> (view_functions app)) in
  match view_functions app !! endpoint with
  | Some old_func =>
      if decide (def_line old_func = def_line f) then Registered added
      else AssertionError
             ("View function mapping is overwriting an existing endpoint function: "
              +:+ endpoint)
  | None => Registered added
  end.

(** The decorated [def] statements of the source, in source order, each
    with the arguments of its [@app.route]. *)
Definition decorated_definitions : list (string * list string * Function) := [
  ("/products/<int:product_id>", ["PUT"],
   mkFunction 235 "update_products" (WithProductId update_products));
  ("/products/<int:product_id>", ["DELETE"],
   mkFunction 262 "delete_products" (WithProductId delete_products));
  ("/products", ["GET"],
   mkFunction 281 "list_products" (NoArgs list_products_first));
  ("/products", ["GET"],
   mkFunction 296 "list_products" (NoArgs list_products))
].

(** Executing decorated definitions one after the other: the first one
    that is refused ends the execution. *)
Fixpoint register (defs : list (string * list string * Function)) (app : App)
    : Registration :=
  match defs with
  | [] => Registered app
  | (rule, methods, f) :: defs' =>
      match route rule methods f app with
      | Registered app' => register defs' app'
      | AssertionError message => AssertionError message
      end
  end.

End service.

Abbreviation Store := (list Product).

(** ** Sample data *)

(** Modelled from the spec: three members of the [Category] enumeration,
    the ones the spec names ([service.models] is not among the sources). *)
Inductive SampleCategory := UNKNOWN | FOOD | CLOTHS.

#[global] Instance SampleCategory_eq_dec : EqDecision SampleCategory.
Proof. solve_decision. Defined.

Definition SampleCategory_name (c : SampleCategory) : string :=
  match c with
  | UNKNOWN => "UNKNOWN"
  | FOOD => "FOOD"
  | CLOTHS => "CLOTHS"
  end.

Lemma SampleCategory_complete (c : SampleCategory) : c ∈ [UNKNOWN; FOOD; CLOTHS].
Proof. destruct c; set_solver. Qed.

Lemma SampleCategory_name_inj (c1 c2 : SampleCategory) :
  SampleCategory_name c1 = SampleCategory_name c2 → c1 = c2.
Proof. by destruct c1, c2. Qed.

#[global] Instance SampleCategory_enum : Py.Enum SampleCategory := {|
  Py.enum_eq_dec := SampleCategory_eq_dec;
  Py.members := [UNKNOWN; FOOD; CLOTHS];
  Py.member_name := SampleCategory_name;
  Py.members_complete := SampleCategory_complete;
  Py.member_name_inj := SampleCategory_name_inj;
|}.

(** 59.95 and 3.50 *)
Definition price_59_95 : PyDecimal.t :=
  PyDecimal.mk false 59 (Decimal.D9 (Decimal.D5 Decimal.Nil)).
Definition price_3_50 : PyDecimal.t :=
  PyDecimal.mk false 3 (Decimal.D5 (Decimal.D0 Decimal.Nil)).

Definition hat : Product :=
  mkProduct (Some 1) "Hat" (Some "A red fedora") price_59_95 true CLOTHS.
Definition pie : Product :=
  mkProduct (Some 2) "Pie" None price_3_50 false FOOD.

Definition sample_store : Store := [hat; pie].

(** A [GET] with the given query string. *)
Definition GET (query_string : list (string * string)) : Request :=
  mkRequest None query_string None.

(** A [PUT] with a JSON body. *)
Definition PUT_json (body : JSON) : Request :=
  mkRequest (Some "application/json") [] (Some body).

(** A [PUT] whose content type is not JSON. *)
Definition PUT_text : Request := mkRequest (Some "text/plain") [] None.

(** The record [PUT /products/2] leaves behind when the body is the hat. *)
Definition hat_as_2 : Product :=
  mkProduct (Some 2) "Hat" (Some "A red fedora") price_59_95 true CLOTHS.

(** The hat with a new description. *)
Definition hat_updated : Product :=
  mkProduct (Some 1) "Hat" (Some "Updated Description") price_59_95 true CLOTHS.

(** ** A utility of the test suite *)

Section test_utilities.

Context {Category : Type} {Category_enum : Py.Enum Category}.

(** [get_product_count]: a [GET /products] through the test client, the
    assertion that the status is 200, and the length of the decoded body.
    [None] when the assertion fails or the body has no length. *)
Definition get_product_count (s : list (@Product Category)) : option nat :=
  match serve list_products (GET []) s with
  | (HTTP status_code body, _) =>
      if decide (status_code = HTTP_200_OK) then
        match body with
        | Json (JArr data) => Some (length data)
        | Json (JObj data) => Some (size data)
        | Json (JStr data) => Some (String.length data)
        | _ => None
        end
      else None
  | (Unhandled _, _) => None
  end.

End test_utilities.

(** * Facts *)

(** ** Text *)

Lemma app_nil_l (s : string) : "" +:+ s = s.
Proof. reflexivity. Qed.

Lemma app_cons (c : ascii) (s t : string) : String c s +:+ t = String c (s +:+ t).
Proof. reflexivity. Qed.

Lemma app_nil_r (s : string) : s +:+ "" = s.
Proof. induction s as [|c s IH]; [done|]. by rewrite app_cons, IH. Qed.

Lemma truthy_Some (v : option string) (s : string) :
  Py.truthy v = Some s ↔ v = Some s ∧ s ≠ "".
Proof.
  unfold Py.truthy. destruct v as [t|]; [case_decide; subst|].
  - split; [done|]. by intros [[= <-] ?].
  - split; [intros [= <-]|intros [[= <-] _]]; done.
  - split; [done|]. by intros [? _].
Qed.

Lemma truthy_None (v : option string) :
  Py.truthy v = None ↔ v = None ∨ v = Some "".
Proof.
  unfold Py.truthy. destruct v as [t|]; [case_decide; subst|].
  - split; [by right|done].
  - split; [done|]. by intros [|[= ->]].
  - split; [by left|done].
Qed.

(** ** Decimal amounts survive their text form *)

Lemma split_point_digits (u : Decimal.uint) (rest : string) :
  PyDecimal.split_point (NilEmpty.string_of_uint u +:+ rest) =
  (NilEmpty.string_of_uint u +:+ (PyDecimal.split_point rest).1,
   (PyDecimal.split_point rest).2).
Proof.
  induction u; simpl; rewrite ?app_nil_l, ?app_cons; simpl.
  all: try by rewrite IHu.
  by destruct (PyDecimal.split_point rest).
Qed.

Lemma N_to_uint_nonnil (n : N) : N.to_uint n ≠ Decimal.Nil.
Proof. destruct n; [done|]. apply DecimalPos.Unsigned.to_uint_nonnil. Qed.

Lemma string_of_uint_nonempty (u : Decimal.uint) :
  u ≠ Decimal.Nil →
  ∃ c s, NilEmpty.string_of_uint u = String c s ∧ c ≠ "-"%char.
Proof. destruct u; [done|..]; intros _; simpl; eauto. Qed.

Lemma split_point_frac_text (f : Decimal.uint) :
  PyDecimal.split_point (PyDecimal.frac_text f) = ("", NilEmpty.string_of_uint f).
Proof. by destruct f. Qed.

Lemma parse_unsigned_digits (neg : bool) (n : N) (f : Decimal.uint) :
  PyDecimal.parse_unsigned neg
    (NilEmpty.string_of_uint (N.to_uint n) +:+ PyDecimal.frac_text f)
  = Some (PyDecimal.mk neg n f).
Proof.
  unfold PyDecimal.parse_unsigned.
  rewrite split_point_digits, split_point_frac_text. simpl. rewrite app_nil_r.
  destruct (string_of_uint_nonempty _ (N_to_uint_nonnil n)) as (c & I & HI & _).
  rewrite decide_False by (rewrite HI; intros [? _]; done).
  rewrite !NilEmpty.usu. simpl. by rewrite Unsigned.of_to.
Qed.

Lemma PyDecimal_parse_str (d : PyDecimal.t) :
  PyDecimal.parse (PyDecimal.str d) = Some d.
Proof.
  destruct d as [neg n f]. unfold PyDecimal.str.
  change (PyDecimal.frac_digits _) with f. change (PyDecimal.int_part _) with n.
  change (PyDecimal.negative _) with neg.
  pose proof (parse_unsigned_digits neg n f) as Hbody.
  destruct neg.
  - exact Hbody.
  - rewrite app_nil_l.
    destruct (string_of_uint_nonempty _ (N_to_uint_nonnil n)) as (c & I & HI & Hc).
    rewrite HI in *. rewrite app_cons in *.
    unfold PyDecimal.parse.
    destruct c as [[] [] [] [] [] [] [] []]; done.
Qed.

(** ** Query strings *)

Lemma args_get_nil (key : string) ct j : args_get key (mkRequest ct [] j) = None.
Proof. reflexivity. Qed.




Section facts.

Context {Category : Type} {Category_enum : Py.Enum Category}.

Implicit Types (p r : @Product Category) (s : list (@Product Category)) (req : Request).

(** ** Enumerations *)

Lemma getattr_member_name (c : Category) : Py.getattr (Py.member_name c) = Some c.
Proof.
  unfold Py.getattr.
  destruct (list_find_elem_of (λ c', Py.member_name c' = Py.member_name c)
              Py.members c) as [[i c'] Hfind].
  { apply Py.members_complete. }
  { done. }
  rewrite Hfind. simpl.
  apply list_find_Some in Hfind as (_ & Hname & _).
  by rewrite (Py.member_name_inj _ _ Hname).
Qed.

(** ** The table *)

Lemma Product_find_nil (k : Z) : Product_find k ([] : list (@Product Category)) = None.
Proof. reflexivity. Qed.

Lemma Product_find_cons (k : Z) r s :
  Product_find k (r :: s) = if decide (id r = Some k) then Some r else Product_find k s.
Proof.
  unfold Product_find. simpl. case_decide; [done|].
  by destruct (list_find _ s) as [[i r']|].
Qed.

Lemma Product_find_Some (k : Z) s p :
  Product_find k s = Some p → id p = Some k ∧ p ∈ s.
Proof.
  induction s as [|r s IH]; [done|].
  rewrite Product_find_cons. case_decide.
  - intros [= ->]. split; [done|]. left.
  - intros Hp. destruct (IH Hp). split; [done|]. by right.
Qed.

Lemma Product_find_None (k : Z) s :
  Product_find k s = None ↔ ∀ r, r ∈ s → id r ≠ Some k.
Proof.
  unfold Product_find. rewrite fmap_None, list_find_None, Forall_forall. done.
Qed.

(** Deleting a record leaves no record of its id behind. *)
Lemma Product_find_delete_eq (k : Z) p s :
  id p = Some k → Product_find k (Product_delete p s) = None.
Proof.
  intros Hid. apply Product_find_None. intros r.
  unfold Product_delete. rewrite list_elem_of_filter, Hid. tauto.
Qed.

(** Deleting a record leaves the records of other ids where they are. *)
Lemma Product_find_delete_ne (k j : Z) p s :
  id p = Some k → j ≠ k → Product_find j (Product_delete p s) = Product_find j s.
Proof.
  intros Hid Hne. unfold Product_delete. rewrite Hid.
  induction s as [|r s IH]; [done|].
  rewrite (Product_find_cons j r s).
  destruct (decide (id r = Some k)) as [Hr|Hr].
  - rewrite filter_cons_False by tauto.
    rewrite decide_False by congruence. exact IH.
  - rewrite filter_cons_True by done. rewrite Product_find_cons.
    case_decide; [done|]. exact IH.
Qed.

(** Deleting an id that has no record changes nothing. *)
Lemma filter_absent (k : Z) s :
  Product_find k s = None → filter (λ r, id r ≠ Some k) s = s.
Proof.
  rewrite Product_find_None. intros Habsent.
  induction s as [|r s IH]; [done|].
  rewrite filter_cons_True by (apply Habsent; left).
  f_equal. apply IH. intros r' Hr'. apply Habsent. by right.
Qed.

(** An update puts the new record where the old one of that id was. *)
Lemma Product_find_update (k : Z) p s :
  id p = Some k → is_Some (Product_find k s) →
  Product_find k ((λ r, if decide (id r = Some k) then p else r) <$> s) = Some p.
Proof.
  intros Hid. induction s as [|r s IH]; intros [p0 Hp0]; [done|].
  rewrite fmap_cons, Product_find_cons.
  rewrite Product_find_cons in Hp0.
  destruct (decide (id r = Some k)) as [Hr|Hr].
  - by rewrite decide_True.
  - rewrite decide_False by done. apply IH. eauto.
Qed.

(** An update leaves the records of other ids where they are. *)
Lemma Product_find_update_ne (k j : Z) p s :
  id p = Some k → j ≠ k →
  Product_find j ((λ r, if decide (id r = Some k) then p else r) <$> s)
  = Product_find j s.
Proof.
  intros Hid Hne. induction s as [|r s IH]; [done|].
  rewrite fmap_cons, !Product_find_cons, IH.
  destruct (decide (id r = Some k)) as [Hr|Hr]; [|done].
  rewrite Hid, Hr. by rewrite !decide_False by congruence.
Qed.

(** ** What [serialize] holds under each key *)

Lemma serialize_fields p :
  ∃ fields, serialize p = JObj fields
    ∧ fields !! "id" = Some (from_option JInt JNull (id p))
    ∧ fields !! "name" = Some (JStr (name p))
    ∧ fields !! "description" = Some (from_option JStr JNull (description p))
    ∧ fields !! "price" = Some (JStr (PyDecimal.str (price p)))
    ∧ fields !! "available" = Some (JBool (available p))
    ∧ fields !! "category" = Some (JStr (Py.member_name (category p))).
Proof.
  eexists. split; [reflexivity|].
  generalize (from_option JInt JNull (id p)), (JStr (name p)),
    (from_option JStr JNull (description p)), (JStr (PyDecimal.str (price p))),
    (JBool (available p)), (JStr (Py.member_name (category p))).
  intros j1 j2 j3 j4 j5 j6. repeat split; vm_compute; reflexivity.
Qed.

(** ** The handlers, case by case *)

(** The three query parameters decide what [list_products] does. *)
Lemma list_products_cases req s :
  list_products req s =
  match Py.truthy (args_get "name" req),
        Py.truthy (args_get "category" req),
        Py.truthy (args_get "available" req) with
  | Some n, _, _ =>
      (Return (Json (JArr (serialize <$> Product_find_by_name n s)), HTTP_200_OK), s)
  | None, Some c, _ =>
      match Py.getattr (Py.upper c) with
      | Some cv =>
          (Return (Json (JArr (serialize <$> Product_find_by_category cv s)),
                   HTTP_200_OK), s)
      | None => (Raise (AttributeError (Py.upper c)), s)
      end
  | None, None, Some a =>
      (Return (Json (JArr (serialize <$> Product_find_by_availability
                 (bool_decide (Py.lower a ∈ ["true"; "yes"; "1"])) s)),
               HTTP_200_OK), s)
  | None, None, None =>
      (Return (Json (JArr (serialize <$> Product_all s)), HTTP_200_OK), s)
  end.
Proof.
  unfold list_products, mbind, View_bind, request_args_get, getattr_Category.
  destruct (Py.truthy (args_get "name" req)) as [n|]; [done|].
  destruct (Py.truthy (args_get "category" req)) as [c|].
  - by destruct (Py.getattr (Py.upper c)).
  - by destruct (Py.truthy (args_get "available" req)).
Qed.

Lemma list_products_first_all req s :
  list_products_first req s =
  (Return (Json (JArr (serialize <$> Product_all s)), HTTP_200_OK), s).
Proof. reflexivity. Qed.

(** [update_products] stops at the content-type check. *)
Lemma update_products_wrong_content_type (product_id : Z) req s :
  content_type req ≠ Some "application/json" →
  update_products product_id req s =
  (Raise (HTTPException HTTP_415_UNSUPPORTED_MEDIA_TYPE
            "Content-Type must be application/json"), s).
Proof.
  intros Hct. unfold update_products, mbind, View_bind, check_content_type.
  by rewrite decide_False.
Qed.

(** [update_products] stops at the lookup. *)
Lemma update_products_not_found (product_id : Z) req s :
  content_type req = Some "application/json" →
  Product_find product_id s = None →
  update_products product_id req s =
  (Raise (HTTPException HTTP_404_NOT_FOUND (not_found_message product_id)), s).
Proof.
  intros Hct Hfind.
  unfold update_products, mbind, View_bind, check_content_type, query.
  rewrite decide_True by done. by rewrite Hfind.
Qed.

(** What a returning [update_products] went through. *)
Lemma update_products_returns (product_id : Z) req s body status s' :
  update_products product_id req s = (Return (body, status), s') →
  ∃ p0 data p1,
    content_type req = Some "application/json"
    ∧ Product_find product_id s = Some p0
    ∧ json req = Some data
    ∧ deserialize p0 data = Return p1
    ∧ body = Json (serialize (set_id product_id p1))
    ∧ status = HTTP_200_OK
    ∧ s' = (λ r, if decide (id r = Some product_id)
                  then set_id product_id p1 else r) <$> s.
Proof.
  unfold update_products, mbind, View_bind, check_content_type, query,
    request_get_json, lift, commit, abort, raise.
  case_decide as Hct; [|done].
  destruct (Product_find product_id s) as [p0|] eqn:Hfind; [|done].
  destruct (json req) as [data|] eqn:Hjson; [|done].
  destruct (deserialize p0 data) as [p1|e] eqn:Hde; [|done].
  simpl. intros [= <- <- <-]. by exists p0, data, p1.
Qed.

(** [delete_products] always returns, and what it leaves behind. *)
Lemma delete_products_result (product_id : Z) req s :
  delete_products product_id req s =
  (Return (Text "", HTTP_204_NO_CONTENT),
   match Product_find product_id s with
   | Some p => Product_delete p s
   | None => s
   end).
Proof.
  unfold delete_products, mbind, View_bind, query, commit.
  by destruct (Product_find product_id s).
Qed.

Lemma get_products_not_found (product_id : Z) req s :
  Product_find product_id s = None →
  get_products product_id req s =
  (Raise (HTTPException HTTP_404_NOT_FOUND (not_found_message product_id)), s).
Proof.
  intros Hfind. unfold get_products, mbind, View_bind, query. by rewrite Hfind.
Qed.

(** ** The listing and its filters *)

(** C1 (amended). [GET /products] honours at most one filter, looked for
    in the order name, category, available, and a parameter counts only
    when its value is not empty: a non-empty [name] alone decides the
    answer (the records of that name); without one, a non-empty [category]
    that names a member alone decides it (the records of that category);
    without either, a non-empty [available] decides it; and when none of
    the three is supplied the answer is every record of the table. *)
Theorem list_products_filter_precedence req s :
  (∀ n, args_get "name" req = Some n → n ≠ "" →
     list_products req s =
     (Return (Json (JArr (serialize <$> Product_find_by_name n s)), HTTP_200_OK), s))
  ∧ (∀ c cv, Py.truthy (args_get "name" req) = None →
       args_get "category" req = Some c → c ≠ "" →
       Py.getattr (Py.upper c) = Some cv →
     list_products req s =
     (Return (Json (JArr (serialize <$> Product_find_by_category cv s)),
              HTTP_200_OK), s))
  ∧ (∀ a, Py.truthy (args_get "name" req) = None →
       Py.truthy (args_get "category" req) = None →
       args_get "available" req = Some a → a ≠ "" →
     list_products req s =
     (Return (Json (JArr (serialize <$> Product_find_by_availability
                (bool_decide (Py.lower a ∈ ["true"; "yes"; "1"])) s)),
              HTTP_200_OK), s))
  ∧ (args_get "name" req = None → args_get "category" req = None →
       args_get "available" req = None →
     list_products req s =
     (Return (Json (JArr (serialize <$> Product_all s)), HTTP_200_OK), s)).
Proof.
  rewrite list_products_cases. repeat split.
  - intros n Hn Hne. by rewrite (proj2 (truthy_Some _ n)).
  - intros c cv -> Hc Hne Hcv. rewrite (proj2 (truthy_Some _ c)) by done.
    by rewrite Hcv.
  - intros a -> -> Ha Hne. by rewrite (proj2 (truthy_Some _ a)).
  - by intros -> -> ->.
Qed.

(** C3 (amended). With no [name] and no [category] parameter and a
    non-empty [available] parameter, the value is read as a boolean, true
    exactly when its lower-case form is [true], [yes] or [1], and the
    answer lists exactly the records whose [available] flag is that
    boolean. *)
Theorem list_products_by_availability req s (a : string) :
  args_get "name" req = None → args_get "category" req = None →
  args_get "available" req = Some a → a ≠ "" →
  ∃ (flag : bool) (products : list Product),
    (flag = true ↔ Py.lower a = "true" ∨ Py.lower a = "yes" ∨ Py.lower a = "1")
    ∧ list_products req s =
      (Return (Json (JArr (serialize <$> products)), HTTP_200_OK), s)
    ∧ products = Product_find_by_availability flag s
    ∧ ∀ p, p ∈ products ↔ p ∈ s ∧ available p = flag.
Proof.
  intros Hname Hcat Hav Hne.
  exists (bool_decide (Py.lower a ∈ ["true"; "yes"; "1"])). eexists.
  split; [|split; [|split; [reflexivity|]]].
  - rewrite bool_decide_eq_true, !elem_of_cons, elem_of_nil. tauto.
  - rewrite list_products_cases, Hname, Hcat. simpl.
    by rewrite (proj2 (truthy_Some _ a)).
  - intros p. unfold Product_find_by_availability.
    rewrite list_elem_of_filter. tauto.
Qed.


(** ** Registering [list_products] twice *)

(** A function that was registered is the view of its endpoint. *)
Lemma route_registered (rule : string) (methods : list string)
    (f : @Function Category) (app app' : @App Category) :
  route rule methods f app = Registered app' →
  view_functions app' !! func_name f = Some f.
Proof.
  unfold route.
  destruct (view_functions app !! func_name f) as [old_func|];
    [case_decide; [|done]|];
    intros [= <-]; apply lookup_insert_eq.
Qed.

(** An endpoint that has a view is refused to every other function. *)
Lemma route_refused (rule : string) (methods : list string)
    (f old_func : @Function Category) (app : @App Category) :
  view_functions app !! func_name f = Some old_func →
  def_line old_func ≠ def_line f →
  route rule methods f app =
  AssertionError
    ("View function mapping is overwriting an existing endpoint function: "
     +:+ func_name f).
Proof. intros Hold Hline. unfold route. rewrite Hold. by rewrite decide_False. Qed.

(** C4 (the code fails it). [list_products] is defined twice under
    [GET /products], and the second registration does not replace the
    first: whatever the application already holds, executing the decorated
    definitions of the source ends in an [AssertionError], and on an
    application with no views yet it is the one about the endpoint
    [list_products], raised when the second definition is decorated. *)
Theorem list_products_second_registration_refused :
  (∀ app : @App Category,
     ∃ message, register decorated_definitions app = AssertionError message)
  ∧ register decorated_definitions (mkApp [] (∅ : gmap string (@Function Category)))
    = AssertionError
        "View function mapping is overwriting an existing endpoint function: list_products".
Proof.
  split.
  - intros app. unfold decorated_definitions. cbn [register].
    destruct (route _ _ _ app) as [app1|]; [|by eexists].
    destruct (route _ _ _ app1) as [app2|]; [|by eexists].
    destruct (route _ _ _ app2) as [app3|] eqn:Hfirst; [|by eexists].
    apply route_registered in Hfirst.
    rewrite (route_refused "/products" ["GET"]
               (mkFunction 296 "list_products" (NoArgs list_products))
               _ app3 Hfirst) by done.
    by eexists.
  - vm_compute. reflexivity.
Qed.

(** An unrecognized category leaves [list_products] as an
    [AttributeError], which no error handler turns into a response. *)
Lemma list_products_unrecognized_category req s (c : string) :
  Py.truthy (args_get "name" req) = None →
  args_get "category" req = Some c → c ≠ "" →
  Py.getattr (E := Category) (Py.upper c) = None →
  serve list_products req s = (Unhandled (AttributeError (Py.upper c)), s).
Proof.
  intros Hname Hcat Hne Hattr. unfold serve.
  rewrite list_products_cases, Hname, (proj2 (truthy_Some _ c)) by done.
  by rewrite Hattr.
Qed.

(** ** Updates *)

(** C5. When [PUT /products/<id>] succeeds, the record it returns and the
    record the table then holds under the path id both carry the path id,
    whatever the body said: the answer is a 200 with the serialization of
    a record [p] whose id is the path id, the [id] key of that
    serialization is the path id, and looking the path id up afterwards
    finds [p]. *)
Theorem update_products_path_id_authoritative
    (product_id : Z) req s (body : Body) (status : Z) s' :
  update_products product_id req s = (Return (body, status), s') →
  ∃ p fields,
    status = HTTP_200_OK
    ∧ body = Json (serialize p)
    ∧ id p = Some product_id
    ∧ serialize p = JObj fields
    ∧ fields !! "id" = Some (JInt product_id)
    ∧ Product_find product_id s' = Some p.
Proof.
  intros (p0 & data & p1 & _ & Hfind & _ & _ & -> & -> & ->)%update_products_returns.
  destruct (serialize_fields (set_id product_id p1))
    as (fields & Hser & Hid & _).
  exists (set_id product_id p1), fields.
  repeat split; try done.
  apply Product_find_update; [done|by eexists].
Qed.

(** C9. Without the JSON content type [PUT /products/<id>] answers 415
    whether or not the id has a record: the content type is checked before
    the record is looked up, and the table is left as it was. *)
Theorem update_products_content_type_first (product_id : Z) req s :
  content_type req ≠ Some "application/json" →
  ∃ body,
    serve (update_products product_id) req s =
    (HTTP HTTP_415_UNSUPPORTED_MEDIA_TYPE body, s).
Proof.
  intros Hct. unfold serve.
  rewrite update_products_wrong_content_type by done. by eexists.
Qed.

(** C6. For an id with no record, [GET /products/<id>], and
    [PUT /products/<id>] sent as JSON, answer 404 with a JSON object whose
    [message] is [Product with id '<id>' was not found.], and leave the
    table as it was. *)
Theorem not_found_message_names_the_id (product_id : Z) req s :
  Product_find product_id s = None →
  let message := "Product with id '" +:+ Py.str product_id +:+ "' was not found." in
  (∃ fields,
     serve (get_products product_id) req s =
     (HTTP HTTP_404_NOT_FOUND (Json (JObj fields)), s)
     ∧ fields !! "message" = Some (JStr message))
  ∧ (content_type req = Some "application/json" →
     ∃ fields,
       serve (update_products product_id) req s =
       (HTTP HTTP_404_NOT_FOUND (Json (JObj fields)), s)
       ∧ fields !! "message" = Some (JStr message)).
Proof.
  intros Hfind message. split.
  - unfold serve. rewrite get_products_not_found by done.
    eexists. split; [reflexivity|]. apply lookup_singleton_eq.
  - intros Hct. unfold serve. rewrite update_products_not_found by done.
    eexists. split; [reflexivity|]. apply lookup_singleton_eq.
Qed.

(** ** Deletion *)

(** C7. [DELETE /products/<id>] answers 204 with an empty body for every
    id. Afterwards the id has no record and every other id has the record
    it had; when the id had no record the table is unchanged; and sending
    the request again gives the same answer and the same table. *)
Theorem delete_products_always_204 (product_id : Z) req s :
  ∃ s',
    serve (delete_products product_id) req s =
    (HTTP HTTP_204_NO_CONTENT (Text ""), s')
    ∧ Product_find product_id s' = None
    ∧ (∀ k, k ≠ product_id → Product_find k s' = Product_find k s)
    ∧ (Product_find product_id s = None → s' = s)
    ∧ serve (delete_products product_id) req s' =
      (HTTP HTTP_204_NO_CONTENT (Text ""), s').
Proof.
  unfold serve. rewrite delete_products_result.
  eexists. split; [reflexivity|].
  destruct (Product_find product_id s) as [p|] eqn:Hfind.
  - apply Product_find_Some in Hfind as [Hid _].
    assert (Hgone : Product_find product_id (Product_delete p s) = None)
      by by apply Product_find_delete_eq.
    repeat split.
    + done.
    + intros k Hk. by apply (Product_find_delete_ne product_id).
    + done.
    + by rewrite delete_products_result, Hgone.
  - repeat split; try done.
    by rewrite delete_products_result, Hfind.
Qed.

(** ** Serialization *)

(** C8. Deserializing what [serialize] produced for a product [p], onto
    any product [q], succeeds and gives [p] back in every field but the
    id: name, description, price, availability and category are those of
    [p], and the id is still that of [q]. *)
Theorem deserialize_serialize (p q : @Product Category) :
  deserialize q (serialize p) =
  Return (mkProduct (id q) (name p) (description p) (price p)
            (available p) (category p)).
Proof.
  destruct (serialize_fields p)
    as (fields & -> & _ & Hname & Hdesc & Hprice & Hav & Hcat).
  unfold deserialize.
  rewrite Hname, Hdesc, Hprice, Hav, Hcat.
  rewrite PyDecimal_parse_str, getattr_member_name.
  by destruct (description p).
Qed.

(** ** What the handlers leave alone *)

(** X1. Listing never changes the table, under either definition. *)
Theorem list_products_reads_only req s :
  (list_products req s).2 = s ∧ (list_products_first req s).2 = s.
Proof.
  split; [|done]. rewrite list_products_cases.
  destruct (Py.truthy (args_get "name" req)); [done|].
  destruct (Py.truthy (args_get "category" req)) as [c|].
  - by destruct (Py.getattr (Py.upper c)).
  - by destruct (Py.truthy (args_get "available" req)).
Qed.

(** X3. When [PUT /products/<id>] succeeds, the record of every other id
    is the one it was. *)
Theorem update_products_touches_one_record
    (product_id : Z) req s (body : Body) (status : Z) s' (k : Z) :
  update_products product_id req s = (Return (body, status), s') →
  k ≠ product_id →
  Product_find k s' = Product_find k s.
Proof.
  intros (p0 & data & p1 & _ & _ & _ & _ & _ & _ & ->)%update_products_returns Hk.
  by apply Product_find_update_ne.
Qed.

End facts.

(** * The handlers at sample requests *)

(** ** The tests of the repository, on the sample table *)

(** [test_get_product_not_found] *)
Example test_get_product_not_found :
  serve (get_products 0) (GET []) sample_store =
  (HTTP HTTP_404_NOT_FOUND
     (Json (JObj {[ "message" := JStr "Product with id '0' was not found." ]})),
   sample_store).
Proof. reflexivity. Qed.

(** [test_update_product] *)
Example test_update_product :
  serve (update_products 1) (PUT_json (serialize hat_updated)) sample_store =
  (HTTP HTTP_200_OK (Json (serialize hat_updated)), [hat_updated; pie]).
Proof. vm_compute. reflexivity. Qed.

(** [test_delete_product] *)
Example test_delete_product :
  serve (delete_products 1) (GET []) sample_store =
  (HTTP HTTP_204_NO_CONTENT (Text ""), [pie])
  ∧ (serve (get_products 1) (GET []) [pie]).1 =
    HTTP HTTP_404_NOT_FOUND
      (Json (JObj {[ "message" := JStr "Product with id '1' was not found." ]})).
Proof. split; reflexivity. Qed.

(** [test_query_by_category] *)
Example test_query_by_category :
  list_products (GET [("category", "CLOTHS")]) sample_store =
  (Return (Json (JArr (serialize <$> [hat])), HTTP_200_OK), sample_store).
Proof. vm_compute. reflexivity. Qed.

(** [test_query_by_name] *)
Example test_query_by_name :
  list_products (GET [("name", "Pie")]) sample_store =
  (Return (Json (JArr (serialize <$> [pie])), HTTP_200_OK), sample_store).
Proof. vm_compute. reflexivity. Qed.

(** ** The theorems, applied *)

(** C1 at [?name=Hat&category=FOOD&available=no]: only the name counts. *)
Lemma list_products_filter_precedence_witness :
  list_products
    (GET [("name", "Hat"); ("category", "FOOD"); ("available", "no")]) sample_store
  = (Return (Json (JArr (serialize <$> [hat])), HTTP_200_OK), sample_store).
Proof.
  exact (proj1 (list_products_filter_precedence
                  (GET [("name", "Hat"); ("category", "FOOD"); ("available", "no")])
                  sample_store)
               "Hat" eq_refl ltac:(discriminate)).
Defined.

(** C1 as stated fails at [?name=&category=FOOD]: the name parameter is
    present, yet the answer is the FOOD records and not the records named
    by the empty string. *)
Lemma list_products_empty_name_counterexample :
  args_get "name" (GET [("name", ""); ("category", "FOOD")]) = Some ""
  ∧ list_products (GET [("name", ""); ("category", "FOOD")]) sample_store
    = (Return (Json (JArr (serialize <$> [pie])), HTTP_200_OK), sample_store)
  ∧ list_products (GET [("name", ""); ("category", "FOOD")]) sample_store
    ≠ (Return (Json (JArr (serialize <$> Product_find_by_name "" sample_store)),
               HTTP_200_OK), sample_store).
Proof.
  split; [reflexivity|]. split; [by vm_compute|].
  vm_compute. discriminate.
Qed.

(** C3 at [?available=YES]. *)
Lemma list_products_by_availability_witness :
  args_get "available" (GET [("available", "YES")]) = Some "YES"
  ∧ ∃ (flag : bool) (products : list Product),
      (flag = true ↔
       Py.lower "YES" = "true" ∨ Py.lower "YES" = "yes" ∨ Py.lower "YES" = "1")
      ∧ list_products (GET [("available", "YES")]) sample_store =
        (Return (Json (JArr (serialize <$> products)), HTTP_200_OK), sample_store)
      ∧ products = Product_find_by_availability flag sample_store
      ∧ ∀ p, p ∈ products ↔ p ∈ sample_store ∧ available p = flag.
Proof.
  split; [reflexivity|].
  apply (list_products_by_availability (GET [("available", "YES")]) sample_store "YES");
    [reflexivity|reflexivity|reflexivity|discriminate].
Defined.

(** C3 as stated fails at [?available=]: the empty value would read as
    false, yet the answer is every record and not the unavailable ones. *)
Lemma list_products_empty_available_counterexample :
  args_get "name" (GET [("available", "")]) = None
  ∧ args_get "category" (GET [("available", "")]) = None
  ∧ args_get "available" (GET [("available", "")]) = Some ""
  ∧ bool_decide (Py.lower "" ∈ ["true"; "yes"; "1"]) = false
  ∧ list_products (GET [("available", "")]) sample_store
    = (Return (Json (JArr (serialize <$> [hat; pie])), HTTP_200_OK), sample_store)
  ∧ list_products (GET [("available", "")]) sample_store
    ≠ (Return (Json (JArr (serialize <$>
                 Product_find_by_availability false sample_store)),
               HTTP_200_OK), sample_store).
Proof.
  repeat (split; [by vm_compute|]).
  vm_compute. discriminate.
Qed.


(** The two definitions of [list_products] are not interchangeable: at
    [?name=Hat] the second lists the hat and the first every record. *)
Example list_products_definitions_differ :
  list_products (GET [("name", "Hat")]) sample_store
  ≠ list_products_first (GET [("name", "Hat")]) sample_store.
Proof. vm_compute. discriminate. Qed.

(** C2 at [?category=bogus]: the lookup of [BOGUS] raises, the exception
    is not handled, and so the answer is no 4xx response. *)
Theorem list_products_unrecognized_category_unhandled :
  Py.getattr (E := SampleCategory) (Py.upper "bogus") = None
  ∧ serve list_products (GET [("category", "bogus")]) sample_store
    = (Unhandled (AttributeError "BOGUS"), sample_store)
  ∧ ¬ client_error (serve list_products (GET [("category", "bogus")]) sample_store).1.
Proof.
  split; [reflexivity|].
  assert (H : serve list_products (GET [("category", "bogus")]) sample_store
              = (Unhandled (AttributeError "BOGUS"), sample_store)).
  { by apply (list_products_unrecognized_category
                (GET [("category", "bogus")]) sample_store "bogus"). }
  split; [exact H|]. rewrite H. simpl. tauto.
Qed.

(** C5 at [PUT /products/2] with a body whose [id] is 77. *)
Lemma update_products_path_id_authoritative_witness :
  update_products 2 (PUT_json (serialize (set_id 77 hat))) sample_store
  = (Return (Json (serialize hat_as_2), HTTP_200_OK), [hat; hat_as_2])
  ∧ ∃ p fields,
      HTTP_200_OK = HTTP_200_OK
      ∧ Json (serialize hat_as_2) = Json (serialize p)
      ∧ id p = Some 2
      ∧ serialize p = JObj fields
      ∧ fields !! "id" = Some (JInt 2)
      ∧ Product_find 2 [hat; hat_as_2] = Some p.
Proof.
  assert (H : update_products 2 (PUT_json (serialize (set_id 77 hat))) sample_store
              = (Return (Json (serialize hat_as_2), HTTP_200_OK), [hat; hat_as_2]))
    by (vm_compute; reflexivity).
  split; [exact H|].
  exact (update_products_path_id_authoritative 2 _ _ _ _ _ H).
Defined.

(** C9 at [PUT /products/0] sent as plain text: no record has id 0, and
    the answer is the 415. *)
Lemma update_products_content_type_first_witness :
  Product_find 0 sample_store = None
  ∧ ∃ body,
      serve (update_products 0) PUT_text sample_store =
      (HTTP HTTP_415_UNSUPPORTED_MEDIA_TYPE body, sample_store).
Proof.
  split; [reflexivity|].
  apply (update_products_content_type_first 0 PUT_text sample_store).
  discriminate.
Defined.

(** C6 at id 0, for a [GET] and for a [PUT] sent as JSON. *)
Lemma not_found_message_names_the_id_witness :
  Product_find 0 sample_store = None
  ∧ (∃ fields,
       serve (get_products 0) (GET []) sample_store =
       (HTTP HTTP_404_NOT_FOUND (Json (JObj fields)), sample_store)
       ∧ fields !! "message" = Some (JStr "Product with id '0' was not found."))
  ∧ (∃ fields,
       serve (update_products 0) (PUT_json (serialize hat)) sample_store =
       (HTTP HTTP_404_NOT_FOUND (Json (JObj fields)), sample_store)
       ∧ fields !! "message" = Some (JStr "Product with id '0' was not found.")).
Proof.
  split; [reflexivity|]. split.
  - exact (proj1 (not_found_message_names_the_id 0 (GET []) sample_store eq_refl)).
  - exact (proj2 (not_found_message_names_the_id
                    0 (PUT_json (serialize hat)) sample_store eq_refl) eq_refl).
Defined.

(** X3 at [PUT /products/2]: the hat, under id 1, is still the hat. *)
Lemma update_products_touches_one_record_witness :
  Product_find 1 [hat; hat_as_2] = Product_find 1 sample_store.
Proof.
  assert (H : update_products 2 (PUT_json (serialize (set_id 77 hat))) sample_store
              = (Return (Json (serialize hat_as_2), HTTP_200_OK), [hat; hat_as_2]))
    by (vm_compute; reflexivity).
  exact (update_products_touches_one_record 2 _ _ _ _ _ 1 H ltac:(discriminate)).
Defined.

(** * More about the handlers *)

Section more_facts.

Context {Category : Type} {Category_enum : Py.Enum Category}.

Implicit Types (p r : @Product Category) (s : list (@Product Category)) (req : Request).

(** ** Helpers *)

Lemma map_chars_empty (f : ascii → ascii) (t : string) :
  Py.map_chars f t = "" ↔ t = "".
Proof. by destruct t. Qed.

(** One step through [deserialize]: the value under the next key. *)
Ltac deserialize_step fields key :=
  destruct (fields !! key) as [[| | | | |]|]; simpl;
  try done; try (intros [= <-]; by eexists).

Ltac deserialize_steps fields :=
  unfold deserialize, invalid;
  deserialize_step fields "name";
  deserialize_step fields "description";
  (deserialize_step fields "price";
   try (destruct (PyDecimal.parse _); simpl;
        try done; try (intros [= <-]; by eexists)));
  deserialize_step fields "available";
  deserialize_step fields "category";
  (destruct (Py.getattr _); simpl;
   try done; try (intros [= <-]; by eexists)).

(** What [deserialize] returns depends on the record it is applied to only
    through the id, which it keeps. *)
Lemma deserialize_onto p q (data : JSON) p1 :
  deserialize p data = Return p1 →
  id p1 = id p
  ∧ deserialize q data =
    Return (mkProduct (id q) (name p1) (description p1) (price p1)
              (available p1) (category p1)).
Proof.
  destruct data as [| | | | |fields]; try done.
  deserialize_steps fields; by intros [= <-].
Qed.

(** Writing a record over the rows of its id a second time changes
    nothing. *)
Lemma update_rows_twice (k : Z) p s :
  id p = Some k →
  (λ r, if decide (id r = Some k) then p else r) <$>
    ((λ r, if decide (id r = Some k) then p else r) <$> s)
  = (λ r, if decide (id r = Some k) then p else r) <$> s.
Proof.
  intros Hid. rewrite <-list_fmap_compose. apply list_fmap_ext.
  intros i r _. simpl. destruct (decide (id r = Some k)); [|by rewrite decide_False].
  by rewrite decide_True.
Qed.

(** Every way [update_products] can go, in the order the source takes. *)
Lemma update_products_cases (product_id : Z) req s :
  update_products product_id req s =
  if decide (content_type req = Some "application/json") then
    match Product_find product_id s with
    | None =>
        (Raise (HTTPException HTTP_404_NOT_FOUND (not_found_message product_id)), s)
    | Some p0 =>
        match json req with
        | None =>
            (Raise (HTTPException HTTP_400_BAD_REQUEST "Failed to decode JSON object"), s)
        | Some data =>
            match deserialize p0 data with
            | Raise e => (Raise e, s)
            | Return p1 =>
                (Return (Json (serialize (set_id product_id p1)), HTTP_200_OK),
                 (λ r, if decide (id r = Some product_id)
                       then set_id product_id p1 else r) <$> s)
            end
        end
    end
  else
    (Raise (HTTPException HTTP_415_UNSUPPORTED_MEDIA_TYPE
              "Content-Type must be application/json"), s).
Proof.
  unfold update_products, mbind, View_bind, check_content_type, query,
    request_get_json, lift, commit, abort, raise.
  case_decide; [|done].
  destruct (Product_find product_id s); [|done].
  destruct (json req); [|done].
  by destruct (deserialize _ _).
Qed.

(** ** The listing, once more *)

(** X5. The category is matched without regard to case: two requests
    without a non-empty name whose categories have the same upper-case
    form get the same answer, whatever else they carry. *)
Theorem list_products_category_ignores_case req req' s (c c' : string) :
  Py.truthy (args_get "name" req) = None →
  Py.truthy (args_get "name" req') = None →
  args_get "category" req = Some c →
  args_get "category" req' = Some c' →
  c ≠ "" →
  Py.upper c = Py.upper c' →
  list_products req s = list_products req' s.
Proof.
  intros Hn Hn' Hc Hc' Hne Hup.
  assert (Hne' : c' ≠ "").
  { intros ->. apply Hne. by apply (map_chars_empty Py.upper_char). }
  rewrite !list_products_cases, Hn, Hn'.
  rewrite (proj2 (truthy_Some _ c)), (proj2 (truthy_Some _ c')) by done.
  by rewrite Hup.
Qed.

(** ** Updates, once more *)

(** X8. [PUT /products/<id>] is idempotent: after a request that
    succeeded, the same request succeeds again with the same answer and
    leaves the table as the first one left it. *)
Theorem update_products_idempotent
    (product_id : Z) req s (body : Body) (status : Z) s' :
  update_products product_id req s = (Return (body, status), s') →
  update_products product_id req s' = (Return (body, status), s').
Proof.
  rewrite !update_products_cases.
  case_decide; [|done].
  destruct (Product_find product_id s) as [p0|] eqn:Hfind; [|done].
  destruct (json req) as [data|]; [|done].
  destruct (deserialize p0 data) as [p1|e] eqn:Hde; [|done].
  intros [= <- <- <-].
  rewrite Product_find_update by (done || by eexists).
  destruct (deserialize_onto p0 (set_id product_id p1) data p1 Hde) as [_ ->].
  simpl. by rewrite update_rows_twice.
Qed.

(** ** Deletion, once more *)

(** X9. After [DELETE /products/<id>] the table holds exactly the records
    whose id is not the path id, in the order they were in; this is so
    whether or not the id had a record. *)
Theorem delete_products_removes_the_id_only (product_id : Z) req s :
  (delete_products product_id req s).2 = filter (λ r, id r ≠ Some product_id) s.
Proof.
  rewrite delete_products_result. simpl.
  destruct (Product_find product_id s) as [p|] eqn:Hfind.
  - apply Product_find_Some in Hfind as [Hid _].
    unfold Product_delete. by rewrite Hid.
  - by rewrite filter_absent.
Qed.

(** X10. After [DELETE /products/<id>], a [PUT] to the same id sent as
    JSON answers 404 with the message naming the id, and changes
    nothing. *)
Theorem update_after_delete_is_not_found (product_id : Z) req req' s :
  content_type req' = Some "application/json" →
  ∃ fields,
    serve (update_products product_id) req' (delete_products product_id req s).2 =
    (HTTP HTTP_404_NOT_FOUND (Json (JObj fields)),
     (delete_products product_id req s).2)
    ∧ fields !! "message" =
      Some (JStr ("Product with id '" +:+ Py.str product_id +:+ "' was not found.")).
Proof.
  intros Hct. unfold serve.
  rewrite update_products_not_found; [|done|].
  - eexists. split; [reflexivity|]. apply lookup_singleton_eq.
  - rewrite delete_products_result. simpl.
    destruct (Product_find product_id s) as [p|] eqn:Hfind; [|done].
    apply Product_find_Some in Hfind as [Hid _].
    by apply Product_find_delete_eq.
Qed.

(** Deserializing a serialization gives its fields back. *)
Lemma deserialize_of_serialize p q :
  deserialize q (serialize p) =
  Return (mkProduct (id q) (name p) (description p) (price p)
            (available p) (category p)).
Proof.
  destruct (serialize_fields p)
    as (fields & -> & _ & Hname & Hdesc & Hprice & Hav & Hcat).
  unfold deserialize.
  rewrite Hname, Hdesc, Hprice, Hav, Hcat.
  rewrite PyDecimal_parse_str, getattr_member_name.
  by destruct (description p).
Qed.

(** X11. A [PUT] sent as JSON whose body is the serialization of a product,
    to an id that has a record, succeeds: the answer is a 200 with the
    serialization of that product under the path id, and that is the
    record the id then has. *)
Theorem update_products_with_a_serialized_product (product_id : Z) req s p :
  content_type req = Some "application/json" →
  json req = Some (serialize p) →
  is_Some (Product_find product_id s) →
  ∃ s',
    serve (update_products product_id) req s =
    (HTTP HTTP_200_OK (Json (serialize (set_id product_id p))), s')
    ∧ Product_find product_id s' = Some (set_id product_id p).
Proof.
  intros Hct Hjson [p0 Hfind]. unfold serve.
  rewrite update_products_cases, decide_True, Hfind, Hjson by done.
  rewrite deserialize_of_serialize. eexists. split; [reflexivity|].
  apply Product_find_update; [done|by eexists].
Qed.

(** ** The test utility *)

(** X12. [get_product_count] never fails its assertion and returns the
    number of records in the table. *)
Theorem get_product_count_is_the_table_size s :
  get_product_count s = Some (length s).
Proof.
  unfold get_product_count, serve.
  rewrite list_products_cases. simpl.
  by rewrite length_fmap.
Qed.

(** X13. Whenever [GET /products] returns, its body is the array of the
    serializations of a sublist of the table (records of the table, in
    table order); with a non-empty name every one of them has that name,
    and with no such name and a non-empty category every one of them has
    the category whose name is the parameter in upper case. *)
Theorem list_products_answers_match_the_filter req s (body : Body) (status : Z) s' :
  list_products req s = (Return (body, status), s') →
  ∃ products,
    body = Json (JArr (serialize <$> products))
    ∧ products `sublist_of` s
    ∧ (∀ n, Py.truthy (args_get "name" req) = Some n →
         ∀ p, p ∈ products → name p = n)
    ∧ (∀ c, Py.truthy (args_get "name" req) = None →
         Py.truthy (args_get "category" req) = Some c →
         ∀ p, p ∈ products → Py.member_name (category p) = Py.upper c).
Proof.
  rewrite list_products_cases.
  destruct (Py.truthy (args_get "name" req)) as [n|].
  - intros [= <- <- <-]. eexists. split; [reflexivity|].
    split; [apply sublist_filter|]. split; [|done].
    intros ? [= <-] p [Hp _]%list_elem_of_filter. done.
  - destruct (Py.truthy (args_get "category" req)) as [c|].
    + destruct (Py.getattr (Py.upper c)) as [cv|] eqn:Hattr; [|done].
      intros [= <- <- <-]. eexists. split; [reflexivity|].
      split; [apply sublist_filter|]. split; [done|].
      intros ? _ [= <-] p [Hp _]%list_elem_of_filter.
      rewrite Hp. unfold Py.getattr in Hattr.
      apply fmap_Some in Hattr as ([i x] & Hfind & ->).
      by apply list_find_Some in Hfind as (_ & Hname & _).
    + destruct (Py.truthy (args_get "available" req)) as [a|];
        intros [= <- <- <-]; eexists; (split; [reflexivity|]);
        (split; [apply sublist_filter || done|]); done.
Qed.

End more_facts.

(** ** The further theorems, applied *)


(** X5 at [?category=food] and [?name=&category=FOOD&available=1]. *)
Lemma list_products_category_ignores_case_witness :
  list_products (GET [("category", "food")]) sample_store
  = list_products (GET [("name", ""); ("category", "FOOD"); ("available", "1")])
      sample_store.
Proof.
  apply (list_products_category_ignores_case
           (GET [("category", "food")])
           (GET [("name", ""); ("category", "FOOD"); ("available", "1")])
           sample_store "food" "FOOD");
    [reflexivity|reflexivity|reflexivity|reflexivity|discriminate|reflexivity].
Defined.

(** X8 at [PUT /products/2] with the hat as body. *)
Lemma update_products_idempotent_witness :
  update_products 2 (PUT_json (serialize (set_id 77 hat))) sample_store
  = (Return (Json (serialize hat_as_2), HTTP_200_OK), [hat; hat_as_2])
  ∧ update_products 2 (PUT_json (serialize (set_id 77 hat))) [hat; hat_as_2]
    = (Return (Json (serialize hat_as_2), HTTP_200_OK), [hat; hat_as_2]).
Proof.
  assert (H : update_products 2 (PUT_json (serialize (set_id 77 hat))) sample_store
              = (Return (Json (serialize hat_as_2), HTTP_200_OK), [hat; hat_as_2]))
    by (vm_compute; reflexivity).
  split; [exact H|].
  exact (update_products_idempotent 2 _ _ _ _ _ H).
Defined.

(** X10 at id 1. *)
Lemma update_after_delete_is_not_found_witness :
  ∃ fields,
    serve (update_products 1) (PUT_json (serialize hat))
      (delete_products 1 (GET []) sample_store).2 =
    (HTTP HTTP_404_NOT_FOUND (Json (JObj fields)),
     (delete_products 1 (GET []) sample_store).2)
    ∧ fields !! "message" = Some (JStr "Product with id '1' was not found.").
Proof.
  exact (update_after_delete_is_not_found
           1 (GET []) (PUT_json (serialize hat)) sample_store eq_refl).
Defined.

(** X11 at [PUT /products/1] with the updated hat as body. *)
Lemma update_products_with_a_serialized_product_witness :
  ∃ s',
    serve (update_products 1) (PUT_json (serialize hat_updated)) sample_store =
    (HTTP HTTP_200_OK (Json (serialize (set_id 1 hat_updated))), s')
    ∧ Product_find 1 s' = Some (set_id 1 hat_updated).
Proof.
  apply (update_products_with_a_serialized_product
           1 (PUT_json (serialize hat_updated)) sample_store hat_updated);
    [reflexivity|reflexivity|by eexists].
Defined.

(** X13 at [?category=cloths]. *)
Lemma list_products_answers_match_the_filter_witness :
  ∃ products,
    Json (JArr (serialize <$> [hat])) = Json (JArr (serialize <$> products))
    ∧ products `sublist_of` sample_store
    ∧ (∀ n, Py.truthy (args_get "name" (GET [("category", "cloths")])) = Some n →
         ∀ p, p ∈ products → name p = n)
    ∧ (∀ c, Py.truthy (args_get "name" (GET [("category", "cloths")])) = None →
         Py.truthy (args_get "category" (GET [("category", "cloths")])) = Some c →
         ∀ p, p ∈ products → Py.member_name (category p) = Py.upper c).
Proof.
  apply (list_products_answers_match_the_filter
           (GET [("category", "cloths")]) sample_store _ HTTP_200_OK sample_store).
  vm_compute. reflexivity.
Defined.
